(** * The contact-form handler of portfolio-infra/lambda/index.py

    A shallow embedding of [get_source_ip] and [lambda_handler], and the
    properties of the rate-limiting and de-duplication policy they
    implement.

    Python values are the JSON-shaped values an API Gateway event and a
    DynamoDB item are made of.  Text is a byte string; [lower] and [strip]
    act on ASCII letters and ASCII white space and leave every other byte
    alone.  The table is a list of items, oldest first, and the two indexes
    are queries over that list.  The functions of the Python library the
    handler calls ([json.loads], [hashlib.md5], [datetime.isoformat]), the
    clock, the id generator and the mail service are parameters, so every
    statement holds whatever they return. *)

From Stdlib Require Import String Ascii List ZArith Bool Lia.
Import ListNotations.
Local Open Scope string_scope.
Local Open Scope Z_scope.
Set Warnings "-register-all".

(** ** Python values *)

Inductive pyval : Type :=
| PNone
| PBool (b : bool)
| PInt (n : Z)
| PFloat (mantissa exponent : Z)
| PStr (s : string)
| PList (l : list pyval)
| PDict (d : list (string * pyval)).

(** [bool(v)]: the values Python takes for false are [None], [False],
    zero, and the empty string, list and dict. *)
Definition truthy (v : pyval) : bool :=
  match v with
  | PNone => false
  | PBool b => b
  | PInt n => negb (n =? 0)
  | PFloat m _ => negb (m =? 0)
  | PStr s => negb (s =? "")%string
  | PList l => match l with [] => false | _ => true end
  | PDict d => match d with [] => false | _ => true end
  end.

(** [a or b] *)
Definition py_or (a b : pyval) : pyval := if truthy a then a else b.

Definition type_name (v : pyval) : string :=
  match v with
  | PNone => "NoneType"
  | PBool _ => "bool"
  | PInt _ => "int"
  | PFloat _ _ => "float"
  | PStr _ => "str"
  | PList _ => "list"
  | PDict _ => "dict"
  end.

Definition is_str (v : pyval) : bool :=
  match v with PStr _ => true | _ => false end.

(** Equality of two attribute values, as the store compares a key
    attribute with the key of a query. *)
Fixpoint pyval_eqb (a b : pyval) {struct a} : bool :=
  let fix list_eqb (l1 l2 : list pyval) {struct l1} : bool :=
    match l1, l2 with
    | [], [] => true
    | x :: r1, y :: r2 => pyval_eqb x y && list_eqb r1 r2
    | _, _ => false
    end in
  let fix dict_eqb (d1 d2 : list (string * pyval)) {struct d1} : bool :=
    match d1, d2 with
    | [], [] => true
    | (k1, x) :: r1, (k2, y) :: r2 =>
        (k1 =? k2)%string && pyval_eqb x y && dict_eqb r1 r2
    | _, _ => false
    end in
  match a, b with
  | PNone, PNone => true
  | PBool x, PBool y => Bool.eqb x y
  | PInt x, PInt y => x =? y
  | PFloat m1 e1, PFloat m2 e2 => (m1 =? m2) && (e1 =? e2)
  | PStr x, PStr y => (x =? y)%string
  | PList l1, PList l2 => list_eqb l1 l2
  | PDict d1, PDict d2 => dict_eqb d1 d2
  | _, _ => false
  end.

(** ** Exceptions and results *)

Inductive exn : Type :=
| AttributeError (msg : string)
| IndexError (msg : string)
| JSONDecodeError (msg : string)
| ClientError (msg : string).

(** [str(e)] *)
Definition exn_str (e : exn) : string :=
  match e with
  | AttributeError m | IndexError m | JSONDecodeError m | ClientError m => m
  end.

Inductive result (A : Type) : Type :=
| Ok (a : A)
| Err (e : exn).
Arguments Ok {A} a.
Arguments Err {A} e.

Definition rbind {A B : Type} (r : result A) (k : A -> result B) : result B :=
  match r with
  | Ok a => k a
  | Err e => Err e
  end.

Declare Scope result_scope.
Delimit Scope result_scope with result.
Notation "x <- r ; k" := (rbind r (fun x => k))
  (at level 100, r at next level, right associativity) : result_scope.

Definition no_attribute {A : Type} (v : pyval) (attr : string) : result A :=
  Err (AttributeError
         ("'" ++ type_name v ++ "' object has no attribute '" ++ attr ++ "'")).

(** ** Text *)

Definition is_upper (c : ascii) : bool :=
  let n := nat_of_ascii c in ((65 <=? n) && (n <=? 90))%nat.

Definition lower_char (c : ascii) : ascii :=
  if is_upper c then ascii_of_nat (nat_of_ascii c + 32) else c.

(** [s.lower()] *)
Fixpoint lower (s : string) : string :=
  match s with
  | EmptyString => EmptyString
  | String c r => String (lower_char c) (lower r)
  end.

(** The ASCII characters [str.isspace] accepts: tab, line feed, vertical
    tab, form feed, carriage return, the four separators 28 to 31, and
    the space. *)
Definition is_space (c : ascii) : bool :=
  let n := nat_of_ascii c in
  (((9 <=? n) && (n <=? 13)) || ((28 <=? n) && (n <=? 32)))%nat.

Fixpoint lstrip (s : string) : string :=
  match s with
  | EmptyString => EmptyString
  | String c r => if is_space c then lstrip r else s
  end.

Fixpoint rstrip (s : string) : string :=
  match s with
  | EmptyString => EmptyString
  | String c r =>
      match rstrip r with
      | EmptyString => if is_space c then EmptyString else String c EmptyString
      | r' => String c r'
      end
  end.

(** [s.strip()] *)
Definition strip (s : string) : string := rstrip (lstrip s).

(** [s.split(sep)] for a one-character separator. *)
Fixpoint split (sep : ascii) (s : string) : list string :=
  match s with
  | EmptyString => [EmptyString]
  | String c r =>
      if (c =? sep)%char then EmptyString :: split sep r
      else match split sep r with
           | [] => [String c EmptyString]
           | w :: ws => String c w :: ws
           end
  end.

(** [l[0]] *)
Definition index0 (l : list string) : result string :=
  match l with
  | [] => Err (IndexError "list index out of range")
  | w :: _ => Ok w
  end.

(** The methods below exist on [str] only; on any other value the
    attribute lookup raises. *)
Definition py_strip (v : pyval) : result string :=
  match v with
  | PStr s => Ok (strip s)
  | _ => no_attribute v "strip"
  end.

Definition py_lower (v : pyval) : result string :=
  match v with
  | PStr s => Ok (lower s)
  | _ => no_attribute v "lower"
  end.

Definition py_split (v : pyval) (sep : ascii) : result (list string) :=
  match v with
  | PStr s => Ok (split sep s)
  | _ => no_attribute v "split"
  end.

(** ** Dictionaries *)

Fixpoint assoc {A : Type} (k : string) (d : list (string * A)) : option A :=
  match d with
  | [] => None
  | (k', v) :: r => if (k' =? k)%string then Some v else assoc k r
  end.

(** [d.get(k, default)]; only a dict has [get]. *)
Definition py_get (d : pyval) (k : string) (default : pyval) : result pyval :=
  match d with
  | PDict kvs =>
      Ok (match assoc k kvs with Some v => v | None => default end)
  | _ => no_attribute d "get"
  end.

(** ** The table, the mail service and the environment *)

(** A DynamoDB item: attribute names bound to values. *)
Definition item : Type := list (string * pyval).

Record mail : Type := mk_mail {
  Source : string;
  ToAddresses : list string;
  Subject : string;
  BodyText : string
}.

(** The calls the handler makes to the two services, in order. *)
Inductive call : Type :=
| Query (index : string) (key : pyval) (after : string)
| PutItem (it : item)
| SendEmail (m : mail).

(** What an invocation can observe and change: the content of the table,
    the calls made so far, and the lines printed to the log. *)
Record world : Type := mk_world {
  table : list item;
  calls : list call;
  stdout : list string
}.

(** The functions of the Python library the handler calls. *)
Record library : Type := mk_library {
  json_loads : string -> result pyval;
  md5_hexdigest : string -> string;
  isoformat : Z -> string
}.

(** What one invocation is given: the clock (its n-th reading during the
    invocation, in microseconds), the id that [uuid.uuid4] draws, and
    what the mail service answers ([None] when the mail is accepted). *)
Record env : Type := mk_env {
  utcnow : nat -> Z;
  uuid4 : string;
  ses_send_email : mail -> option exn
}.

Definition microseconds_per_minute : Z := 60 * 1000000.
(** [timedelta(hours=h)] and [timedelta(minutes=m)] *)
Definition hours (h : Z) : Z := h * 60 * microseconds_per_minute.
Definition minutes (m : Z) : Z := m * microseconds_per_minute.

(** [KeyConditionExpression='<attr> = :key'] *)
Definition has_key (attr : string) (key : pyval) (it : item) : bool :=
  match assoc attr it with
  | Some v => pyval_eqb v key
  | None => false
  end.

(** [FilterExpression='#ts > :time']: the stored text is compared with the
    bound one byte by byte; an item without a textual Timestamp is
    filtered out. *)
Definition newer_than (time : string) (it : item) : bool :=
  match assoc "Timestamp" it with
  | Some (PStr ts) => String.ltb time ts
  | _ => false
  end.

Definition select (attr : string) (key : pyval) (time : string)
    (tbl : list item) : list item :=
  filter (fun it => has_key attr key it && newer_than time it) tbl.

(** ** Responses *)

Record response : Type := mk_response {
  statusCode : Z;
  headers : list (string * string);
  body : string
}.

Definition dquote : string := String (ascii_of_nat 34) EmptyString.

(** [json.dumps] of a dict of texts.  The handler only dumps the fixed
    literals below, which hold no character that JSON escapes. *)
Definition json_text (s : string) : string := dquote ++ s ++ dquote.

Fixpoint json_members (kvs : list (string * string)) : string :=
  match kvs with
  | [] => ""
  | [(k, v)] => json_text k ++ ": " ++ json_text v
  | (k, v) :: r => json_text k ++ ": " ++ json_text v ++ ", " ++ json_members r
  end.

Definition json_dumps (kvs : list (string * string)) : string :=
  "{" ++ json_members kvs ++ "}".

Definition SENDER_EMAIL : string := "rempisivan@gmail.com".
Definition MAX_SUBMISSIONS_PER_IP : nat := 10.
Definition MAX_SUBMISSIONS_PER_EMAIL : nat := 5.

Definition error_headers : list (string * string) :=
  [("Content-Type", "application/json"); ("Access-Control-Allow-Origin", "*")].

Definition success_headers : list (string * string) :=
  [("Content-Type", "application/json");
   ("Access-Control-Allow-Origin", "*");
   ("Access-Control-Allow-Methods", "POST, OPTIONS");
   ("Access-Control-Allow-Headers", "Content-Type")].

Definition error_response (code : Z) (msg : string) : response :=
  mk_response code error_headers
    (json_dumps [("status", "error"); ("message", msg)]).

Definition success_response (msg : string) : response :=
  mk_response 200 success_headers
    (json_dumps [("status", "success"); ("message", msg)]).

Definition msg_missing : string := "Missing required fields".
Definition msg_ip_limit : string :=
  "Too many submissions. Please try again later.".
Definition msg_email_limit : string :=
  "Too many submissions from this email. Please try again later.".
Definition msg_duplicate : string :=
  "Duplicate submission detected. Please wait a few minutes.".
Definition msg_internal : string := "Internal server error".
Definition msg_received : string := "Message received!".
Definition msg_sent : string := "Message sent!".

(** ** Control flow: a step continues, returns a response, or raises *)

Inductive outcome (A : Type) : Type :=
| Next (a : A)
| Return (r : response)
| Raise (e : exn).
Arguments Next {A} a.
Arguments Return {A} r.
Arguments Raise {A} e.

Definition M (A : Type) : Type := world -> outcome A * world.

Definition ret {A : Type} (a : A) : M A := fun w => (Next a, w).

Definition bind {A B : Type} (m : M A) (k : A -> M B) : M B :=
  fun w =>
    match m w with
    | (Next a, w') => k a w'
    | (Return r, w') => (Return r, w')
    | (Raise e, w') => (Raise e, w')
    end.

Definition return_ {A : Type} (r : response) : M A := fun w => (Return r, w).

Definition lift {A : Type} (r : result A) : M A :=
  fun w => match r with Ok a => (Next a, w) | Err e => (Raise e, w) end.

Definition record_call (c : call) : M unit :=
  fun w => (Next tt, mk_world (table w) (calls w ++ [c]) (stdout w)).

Definition print (line : string) : M unit :=
  fun w => (Next tt, mk_world (table w) (calls w) (stdout w ++ [line])).

Declare Scope handler_scope.
Delimit Scope handler_scope with handler.
Notation "x <- m ;; k" := (bind m (fun x => k))
  (at level 100, m at next level, right associativity) : handler_scope.
Notation "m ;; k" := (bind m (fun _ => k))
  (at level 100, right associativity) : handler_scope.

(** [table.query(IndexName=..., KeyConditionExpression=..., FilterExpression='#ts > :time')]
    and the [Items] of its answer. *)
Definition table_query (index attr : string) (key : pyval) (time : string)
    : M (list item) :=
  (record_call (Query index key time) ;;
   fun w => (Next (select attr key time (table w)), w))%handler.

(** [table.put_item(Item=it)] *)
Definition table_put_item (it : item) : M unit :=
  (record_call (PutItem it) ;;
   fun w => (Next tt, mk_world (table w ++ [it]) (calls w) (stdout w)))%handler.

(** [ses.send_email(...)] inside its own try/except: tells whether the
    mail went out, and prints the fault when it did not. *)
Definition try_send_email (E : env) (m : mail) : M bool :=
  (record_call (SendEmail m) ;;
   match ses_send_email E m with
   | None => ret true
   | Some email_error =>
       print ("Email failed (quota?): " ++ exn_str email_error) ;;
       ret false
   end)%handler.

(** ** get_source_ip (index.py, lines 16-35) *)

Definition comma : ascii := ascii_of_nat 44.

Definition get_source_ip (event : pyval) : result pyval :=
  (request_context <- py_get event "requestContext" (PDict []) ;
   http_info <- py_get request_context "http" (PDict []) ;
   ip <- py_get http_info "sourceIp" PNone ;
   ip <- (if negb (truthy ip) then
            identity <- py_get request_context "identity" (PDict []) ;
            py_get identity "sourceIp" PNone
          else Ok ip) ;
   ip <- (if negb (truthy ip) then
            headers <- py_get event "headers" (PDict []) ;
            lower_case <- py_get headers "x-forwarded-for" PNone ;
            forwarded <- (if truthy lower_case then Ok lower_case
                          else py_get headers "X-Forwarded-For" PNone) ;
            if truthy forwarded then
              parts <- py_split forwarded comma ;
              first <- index0 parts ;
              Ok (PStr (strip first))
            else Ok ip
          else Ok ip) ;
   Ok (py_or ip (PStr "unknown")))%result.

(** ** lambda_handler (index.py, lines 37-165) *)

(** What lines 40-48 read from the event. *)
Record submission : Type := mk_submission {
  name : string;
  email : string;
  message : string;
  source_ip : pyval
}.

(** Step 1, lines 40-48: the body is decoded when it is text and taken as
    it is otherwise; the three fields default to the empty text, are
    trimmed, and the email is lower-cased. *)
Definition parse_body (L : library) (event : pyval) : result pyval :=
  (b <- py_get event "body" PNone ;
   match b with
   | PStr s => json_loads L s
   | _ => py_get event "body" (PDict [])
   end)%result.

Definition field (body : pyval) (key : string) : result string :=
  (v <- py_get body key (PStr "") ; py_strip v)%result.

Definition read_submission (L : library) (event : pyval) : result submission :=
  (body <- parse_body L event ;
   name <- field body "name" ;
   email <- (e <- field body "email" ; Ok (lower e)) ;
   message <- field body "message" ;
   source_ip <- get_source_ip event ;
   Ok (mk_submission name email message source_ip))%result.

(** [not s] for a text. *)
Definition blank (s : string) : bool := (s =? "")%string.

(** Step 4, line 80: [sum(1 for item in items if item.get('Email', '').lower() == email)] *)
Fixpoint email_count (items : list item) (email : string) : result nat :=
  match items with
  | [] => Ok 0%nat
  | it :: rest =>
      (stored <- py_get (PDict it) "Email" (PStr "") ;
       lowered <- py_lower stored ;
       n <- email_count rest email ;
       Ok ((if (lowered =? email)%string then 1 else 0) + n)%nat)%result
  end.

(** Line 89: [hashlib.md5(f"{email}{message.lower()}".encode()).hexdigest()] *)
Definition hashed_text (email message : string) : string :=
  email ++ lower message.

Definition content_hash (L : library) (email message : string) : string :=
  md5_hexdigest L (hashed_text email message).

(** Lines 111-119: the item that is stored. *)
Definition new_item (L : library) (E : env) (s : submission) : item :=
  [("MessageId", PStr (uuid4 E));
   ("Timestamp", PStr (isoformat L (utcnow E 2)));
   ("Name", PStr (name s));
   ("Email", PStr (email s));
   ("Message", PStr (message s));
   ("ContentHash", PStr (content_hash L (email s) (message s)));
   ("SourceIP", source_ip s)].

Definition newline : string := String (ascii_of_nat 10) EmptyString.

(** Lines 124-138: the notification. *)
Definition notification (s : submission) : mail :=
  mk_mail SENDER_EMAIL [SENDER_EMAIL]
    ("New Portfolio Contact: " ++ name s)
    ("You have a new message from your portfolio:" ++ newline ++ newline ++
     "Name: " ++ name s ++ newline ++
     "Email: " ++ email s ++ newline ++
     "Message: " ++ message s).

(** Lines 58 and 90: the lower bounds of the two windows, as text. *)
Definition one_hour_ago (L : library) (E : env) : string :=
  isoformat L (utcnow E 0 - hours 1).

Definition five_mins_ago (L : library) (E : env) : string :=
  isoformat L (utcnow E 1 - minutes 5).

(** Steps 3 to 5, lines 58-108: the three limits, each a gate that either
    returns its 429 or lets the submission through. *)
Definition check_limits (L : library) (E : env) (s : submission) : M unit :=
  (ip_items <- table_query "SourceIPIndex" "SourceIP" (source_ip s)
                 (one_hour_ago L E) ;;
   if (MAX_SUBMISSIONS_PER_IP <=? length ip_items)%nat then
     return_ (error_response 429 msg_ip_limit)
   else
   count <- lift (email_count ip_items (email s)) ;;
   if (MAX_SUBMISSIONS_PER_EMAIL <=? count)%nat then
     return_ (error_response 429 msg_email_limit)
   else
   dup_items <- table_query "ContentHashIndex" "ContentHash"
                  (PStr (content_hash L (email s) (message s)))
                  (five_mins_ago L E) ;;
   match dup_items with
   | _ :: _ => return_ (error_response 429 msg_duplicate)
   | [] => ret tt
   end)%handler.

(** Steps 6 to 8, lines 110-152: store, notify, answer. *)
Definition accept (L : library) (E : env) (s : submission) : M response :=
  (table_put_item (new_item L E s) ;;
   email_sent <- try_send_email E (notification s) ;;
   ret (success_response (if negb email_sent then msg_received else msg_sent))
  )%handler.

(** The body of the try block, lines 39-152. *)
Definition handle (L : library) (E : env) (event : pyval) : M response :=
  (s <- lift (read_submission L event) ;;
   if blank (name s) || blank (email s) || blank (message s) then
     return_ (error_response 400 msg_missing)
   else
   check_limits L E s ;;
   accept L E s)%handler.

(** The whole handler: the try block and the except clause of lines
    156-165.  It maps an event and a world to a response and a world. *)
Definition lambda_handler (L : library) (E : env) (event : pyval) (w : world)
    : response * world :=
  match handle L E event w with
  | (Next r, w') => (r, w')
  | (Return r, w') => (r, w')
  | (Raise e, w') =>
      (error_response 500 msg_internal,
       mk_world (table w') (calls w') (stdout w' ++ ["Error: " ++ exn_str e]))
  end.

(** ** The library functions, for running the handler

    Nothing below is part of index.py: these are executable models of the
    three library functions the environment stands for, used to evaluate
    the handler on concrete events.  [md5_hexdigest] is RFC 1321;
    [isoformat] renders a count of microseconds since 1970-01-01T00:00:00
    the way [datetime.isoformat] does; [json_loads] reads the JSON of
    RFC 8259 (without surrogate pairs and without the NaN and Infinity
    literals that Python adds), and the text of the error it raises is
    not Python's. *)

Module CPython.

(** *** hashlib.md5 *)

Definition mask32 (x : Z) : Z := Z.land x 4294967295.

Definition rotl32 (x c : Z) : Z :=
  mask32 (Z.lor (Z.shiftl x c) (Z.shiftr x (32 - c))).

Definition not32 (x : Z) : Z := Z.lxor x 4294967295.

Definition md5_K : list Z :=
  [3614090360; 3905402710; 606105819; 3250441966; 4118548399; 1200080426;
   2821735955; 4249261313; 1770035416; 2336552879; 4294925233; 2304563134;
   1804603682; 4254626195; 2792965006; 1236535329; 4129170786; 3225465664;
   643717713; 3921069994; 3593408605; 38016083; 3634488961; 3889429448;
   568446438; 3275163606; 4107603335; 1163531501; 2850285829; 4243563512;
   1735328473; 2368359562; 4294588738; 2272392833; 1839030562; 4259657740;
   2763975236; 1272893353; 4139469664; 3200236656; 681279174; 3936430074;
   3572445317; 76029189; 3654602809; 3873151461; 530742520; 3299628645;
   4096336452; 1126891415; 2878612391; 4237533241; 1700485571; 2399980690;
   4293915773; 2240044497; 1873313359; 4264355552; 2734768916; 1309151649;
   4149444226; 3174756917; 718787259; 3951481745].

Definition md5_shifts : list Z :=
  [7; 12; 17; 22; 7; 12; 17; 22; 7; 12; 17; 22; 7; 12; 17; 22;
   5; 9; 14; 20; 5; 9; 14; 20; 5; 9; 14; 20; 5; 9; 14; 20;
   4; 11; 16; 23; 4; 11; 16; 23; 4; 11; 16; 23; 4; 11; 16; 23;
   6; 10; 15; 21; 6; 10; 15; 21; 6; 10; 15; 21; 6; 10; 15; 21].

Definition bytes_of_string (s : string) : list Z :=
  map (fun c => Z.of_nat (nat_of_ascii c)) (list_ascii_of_string s).

Fixpoint le_bytes (count : nat) (x : Z) : list Z :=
  match count with
  | O => []
  | S k => Z.land x 255 :: le_bytes k (Z.shiftr x 8)
  end.

Definition md5_pad (msg : list Z) : list Z :=
  let len := Z.of_nat (length msg) in
  msg ++ [128] ++ repeat 0 (Z.to_nat ((55 - len) mod 64)) ++ le_bytes 8 (8 * len).

Fixpoint le_words (fuel : nat) (bs : list Z) : list Z :=
  match fuel, bs with
  | S k, b0 :: b1 :: b2 :: b3 :: r =>
      (b0 + 256 * b1 + 65536 * b2 + 16777216 * b3) :: le_words k r
  | _, _ => []
  end.

Definition md5_step (block : list Z) (st : Z * Z * Z * Z) (i : nat)
    : Z * Z * Z * Z :=
  let '(a, b, c, d) := st in
  let iz := Z.of_nat i in
  let '(f, g) :=
    if (i <? 16)%nat then (Z.lor (Z.land b c) (Z.land (not32 b) d), iz)
    else if (i <? 32)%nat then
      (Z.lor (Z.land d b) (Z.land (not32 d) c), (5 * iz + 1) mod 16)
    else if (i <? 48)%nat then (Z.lxor b (Z.lxor c d), (3 * iz + 5) mod 16)
    else (Z.lxor c (Z.lor b (not32 d)), (7 * iz) mod 16) in
  let f' := mask32 (f + a + nth i md5_K 0 + nth (Z.to_nat g) block 0) in
  (d, mask32 (b + rotl32 f' (nth i md5_shifts 0)), b, c).

Definition md5_block (st : Z * Z * Z * Z) (block : list Z) : Z * Z * Z * Z :=
  let '(a0, b0, c0, d0) := st in
  let '(a, b, c, d) := fold_left (md5_step block) (seq 0 64) st in
  (mask32 (a0 + a), mask32 (b0 + b), mask32 (c0 + c), mask32 (d0 + d)).

Fixpoint md5_blocks (fuel : nat) (st : Z * Z * Z * Z) (ws : list Z)
    : Z * Z * Z * Z :=
  match fuel, ws with
  | S k, _ :: _ => md5_blocks k (md5_block st (firstn 16 ws)) (skipn 16 ws)
  | _, _ => st
  end.

Definition hex_digit (n : Z) : ascii :=
  ascii_of_nat (Z.to_nat (if n <? 10 then 48 + n else 87 + n)).

Definition hex_byte (b : Z) : string :=
  String (hex_digit (b / 16)) (String (hex_digit (b mod 16)) EmptyString).

Definition md5_hexdigest (s : string) : string :=
  let bs := md5_pad (bytes_of_string s) in
  let ws := le_words (length bs) bs in
  let '(a, b, c, d) :=
    md5_blocks (length ws) (1732584193, 4023233417, 2562383102, 271733878) ws in
  String.concat ""
    (map hex_byte (le_bytes 4 a ++ le_bytes 4 b ++ le_bytes 4 c ++ le_bytes 4 d)).

(** *** datetime *)

(** Year, month and day of a count of days since 1970-01-01, in the
    proleptic Gregorian calendar. *)
Definition civil_from_days (days : Z) : Z * Z * Z :=
  let z := days + 719468 in
  let era := z / 146097 in
  let doe := z - era * 146097 in
  let yoe := (doe - doe / 1460 + doe / 36524 - doe / 146096) / 365 in
  let doy := doe - (365 * yoe + yoe / 4 - yoe / 100) in
  let mp := (5 * doy + 2) / 153 in
  let d := doy - (153 * mp + 2) / 5 + 1 in
  let m := if mp <? 10 then mp + 3 else mp - 9 in
  ((if m <=? 2 then yoe + era * 400 + 1 else yoe + era * 400), m, d).

Definition days_from_civil (y m d : Z) : Z :=
  let y' := if m <=? 2 then y - 1 else y in
  let era := y' / 400 in
  let yoe := y' - era * 400 in
  let doy := (153 * (if 2 <? m then m - 3 else m + 9) + 2) / 5 + d - 1 in
  let doe := yoe * 365 + yoe / 4 - yoe / 100 + doy in
  era * 146097 + doe - 719468.

Definition microseconds_per_day : Z := 86400 * 1000000.

(** [datetime(y, m, d, hh, mm, ss, us)] as a count of microseconds. *)
Definition datetime (y m d hh mm ss us : Z) : Z :=
  days_from_civil y m d * microseconds_per_day
  + ((hh * 60 + mm) * 60 + ss) * 1000000 + us.

Fixpoint zero_padded (width : nat) (n : Z) : string :=
  match width with
  | O => EmptyString
  | S k =>
      zero_padded k (n / 10)
      ++ String (ascii_of_nat (Z.to_nat (48 + n mod 10))) EmptyString
  end.

Definition isoformat (t : Z) : string :=
  let '(y, m, d) := civil_from_days (t / microseconds_per_day) in
  let rest := t mod microseconds_per_day in
  let us := rest mod 1000000 in
  let secs := rest / 1000000 in
  zero_padded 4 y ++ "-" ++ zero_padded 2 m ++ "-" ++ zero_padded 2 d ++ "T"
  ++ zero_padded 2 (secs / 3600) ++ ":" ++ zero_padded 2 (secs / 60 mod 60)
  ++ ":" ++ zero_padded 2 (secs mod 60)
  ++ (if us =? 0 then "" else "." ++ zero_padded 6 us).

(** *** json.loads *)

Definition quote_char : ascii := ascii_of_nat 34.

Definition is_json_space (c : ascii) : bool :=
  let n := nat_of_ascii c in
  ((n =? 32) || (n =? 9) || (n =? 10) || (n =? 13))%nat.

Fixpoint skip_space (s : string) : string :=
  match s with
  | String c r => if is_json_space c then skip_space r else s
  | EmptyString => s
  end.

Definition hex_value (c : ascii) : option Z :=
  let n := Z.of_nat (nat_of_ascii c) in
  if (48 <=? n) && (n <=? 57) then Some (n - 48)
  else if (97 <=? n) && (n <=? 102) then Some (n - 87)
  else if (65 <=? n) && (n <=? 70) then Some (n - 55)
  else None.

Definition byte (n : Z) : ascii := ascii_of_nat (Z.to_nat n).

(** The UTF-8 bytes of a code point of the basic plane; a surrogate has
    none. *)
Definition utf8 (cp : Z) : option string :=
  if cp <? 128 then Some (String (byte cp) EmptyString)
  else if cp <? 2048 then
    Some (String (byte (192 + cp / 64))
            (String (byte (128 + cp mod 64)) EmptyString))
  else if (55296 <=? cp) && (cp <=? 57343) then None
  else
    Some (String (byte (224 + cp / 4096))
            (String (byte (128 + cp / 64 mod 64))
               (String (byte (128 + cp mod 64)) EmptyString))).

Definition simple_escape (c : ascii) : option ascii :=
  if (c =? quote_char)%char then Some quote_char
  else if (c =? "\")%char then Some "\"%char
  else if (c =? "/")%char then Some "/"%char
  else if (c =? "b")%char then Some (ascii_of_nat 8)
  else if (c =? "f")%char then Some (ascii_of_nat 12)
  else if (c =? "n")%char then Some (ascii_of_nat 10)
  else if (c =? "r")%char then Some (ascii_of_nat 13)
  else if (c =? "t")%char then Some (ascii_of_nat 9)
  else None.

Definition prepend (p : string) (r : option (string * string))
    : option (string * string) :=
  match r with
  | Some (txt, rest) => Some (p ++ txt, rest)
  | None => None
  end.

(** The characters of a string literal after its opening quote, and what
    follows its closing quote. *)
Fixpoint string_literal (s : string) : option (string * string) :=
  match s with
  | EmptyString => None
  | String c r =>
      if (c =? quote_char)%char then Some (EmptyString, r)
      else if (c =? "\")%char then
        match r with
        | String e r1 =>
            match simple_escape e with
            | Some x => prepend (String x EmptyString) (string_literal r1)
            | None =>
                if (e =? "u")%char then
                  match r1 with
                  | String h1 (String h2 (String h3 (String h4 r2))) =>
                      match hex_value h1, hex_value h2, hex_value h3, hex_value h4 with
                      | Some a, Some b, Some c', Some d =>
                          match utf8 (((a * 16 + b) * 16 + c') * 16 + d) with
                          | Some bytes => prepend bytes (string_literal r2)
                          | None => None
                          end
                      | _, _, _, _ => None
                      end
                  | _ => None
                  end
                else None
            end
        | EmptyString => None
        end
      else if (nat_of_ascii c <? 32)%nat then None
      else prepend (String c EmptyString) (string_literal r)
  end.

Definition digit_value (c : ascii) : option Z :=
  let n := Z.of_nat (nat_of_ascii c) in
  if (48 <=? n) && (n <=? 57) then Some (n - 48) else None.

(** A run of digits: its value, its length, and what follows. *)
Fixpoint digits (acc : Z) (count : Z) (s : string) : Z * Z * string :=
  match s with
  | String c r =>
      match digit_value c with
      | Some d => digits (acc * 10 + d) (count + 1) r
      | None => (acc, count, s)
      end
  | EmptyString => (acc, count, s)
  end.

Definition fraction_part (s : string) : option (Z * Z * string) :=
  match s with
  | String "." r =>
      let '(v, n, rest) := digits 0 0 r in
      if n =? 0 then None else Some (v, n, rest)
  | _ => None
  end.

Definition exponent_part (s : string) : option (Z * string) :=
  match s with
  | String c r =>
      if ((c =? "e") || (c =? "E"))%char then
        let '(sign, r1) :=
          match r with
          | String "-" r' => (-1, r')
          | String "+" r' => (1, r')
          | _ => (1, r)
          end in
        let '(v, n, rest) := digits 0 0 r1 in
        if n =? 0 then None else Some (sign * v, rest)
      else None
  | EmptyString => None
  end.

(** A number; an integer unless it has a fraction or an exponent. *)
Definition number (s : string) : option (pyval * string) :=
  let '(sign, s1) :=
    match s with
    | String "-" r => (-1, r)
    | _ => (1, s)
    end in
  let int_part :=
    match s1 with
    | String "0" r => Some (0, r)
    | _ => let '(v, n, r) := digits 0 0 s1 in
           if n =? 0 then None else Some (v, r)
    end in
  match int_part with
  | None => None
  | Some (v, r) =>
      match fraction_part r with
      | Some (fv, fn, r1) =>
          match exponent_part r1 with
          | Some (e, r2) => Some (PFloat (sign * (v * 10 ^ fn + fv)) (e - fn), r2)
          | None => Some (PFloat (sign * (v * 10 ^ fn + fv)) (- fn), r1)
          end
      | None =>
          match exponent_part r with
          | Some (e, r2) => Some (PFloat (sign * v) e, r2)
          | None => Some (PInt (sign * v), r)
          end
      end
  end.

Fixpoint strip_prefix (p s : string) : option string :=
  match p, s with
  | EmptyString, _ => Some s
  | String a p', String b s' => if (a =? b)%char then strip_prefix p' s' else None
  | _, EmptyString => None
  end.

(** A key bound again replaces its earlier binding. *)
Fixpoint dict_set (k : string) (v : pyval) (d : list (string * pyval))
    : list (string * pyval) :=
  match d with
  | [] => [(k, v)]
  | (k', v') :: r =>
      if (k' =? k)%string then (k, v) :: r else (k', v') :: dict_set k v r
  end.

Fixpoint value (fuel : nat) (s : string) {struct fuel} : option (pyval * string) :=
  match fuel with
  | O => None
  | S n =>
      match skip_space s with
      | EmptyString => None
      | String c r =>
          if (c =? "{")%char then
            match skip_space r with
            | String "}" r' => Some (PDict [], r')
            | _ => members n r []
            end
          else if (c =? "[")%char then
            match skip_space r with
            | String "]" r' => Some (PList [], r')
            | _ => elements n r []
            end
          else if (c =? quote_char)%char then
            match string_literal r with
            | Some (txt, rest) => Some (PStr txt, rest)
            | None => None
            end
          else
            match strip_prefix "true" (String c r), strip_prefix "false" (String c r),
                  strip_prefix "null" (String c r) with
            | Some rest, _, _ => Some (PBool true, rest)
            | _, Some rest, _ => Some (PBool false, rest)
            | _, _, Some rest => Some (PNone, rest)
            | _, _, _ => number (String c r)
            end
      end
  end
with elements (fuel : nat) (s : string) (acc : list pyval) {struct fuel}
    : option (pyval * string) :=
  match fuel with
  | O => None
  | S n =>
      match value n s with
      | Some (v, r) =>
          match skip_space r with
          | String "," r' => elements n r' (acc ++ [v])
          | String "]" r' => Some (PList (acc ++ [v]), r')
          | _ => None
          end
      | None => None
      end
  end
with members (fuel : nat) (s : string) (acc : list (string * pyval)) {struct fuel}
    : option (pyval * string) :=
  match fuel with
  | O => None
  | S n =>
      match skip_space s with
      | String c r =>
          if (c =? quote_char)%char then
            match string_literal r with
            | Some (k, r1) =>
                match skip_space r1 with
                | String ":" r2 =>
                    match value n r2 with
                    | Some (v, r3) =>
                        match skip_space r3 with
                        | String "," r4 => members n r4 (dict_set k v acc)
                        | String "}" r4 => Some (PDict (dict_set k v acc), r4)
                        | _ => None
                        end
                    | None => None
                    end
                | _ => None
                end
            | None => None
            end
          else None
      | EmptyString => None
      end
  end.

Definition json_loads (s : string) : result pyval :=
  match value (2 * String.length s + 2) s with
  | Some (v, rest) =>
      match skip_space rest with
      | EmptyString => Ok v
      | _ => Err (JSONDecodeError "Extra data")
      end
  | None => Err (JSONDecodeError "Expecting value")
  end.

End CPython.


(** ** Vocabulary of the properties *)

(** The records of the origin within the trailing hour: the answer to the
    query of step 3. *)
Definition recent_from_origin (L : library) (E : env) (s : submission)
    (w : world) : list item :=
  select "SourceIP" (source_ip s) (one_hour_ago L E) (table w).

(** The records with the fingerprint of the submission within the
    trailing five minutes: the answer to the query of step 5. *)
Definition recent_duplicates (L : library) (E : env) (s : submission)
    (w : world) : list item :=
  select "ContentHash" (PStr (content_hash L (email s) (message s)))
    (five_mins_ago L E) (table w).

(** The three fields are there and not empty once trimmed. *)
Definition complete (s : submission) : bool :=
  negb (blank (name s) || blank (email s) || blank (message s)).

(** The submission is under the three limits. *)
Definition passes_limits (L : library) (E : env) (s : submission)
    (w : world) : Prop :=
  (length (recent_from_origin L E s w) < 10)%nat
  /\ (exists c, email_count (recent_from_origin L E s w) (email s) = Ok c
                /\ (c < 5)%nat)
  /\ recent_duplicates L E s w = [].

Definition origin_query (L : library) (E : env) (s : submission) : call :=
  Query "SourceIPIndex" (source_ip s) (one_hour_ago L E).

Definition duplicate_query (L : library) (E : env) (s : submission) : call :=
  Query "ContentHashIndex" (PStr (content_hash L (email s) (message s)))
    (five_mins_ago L E).

(** The world after further calls that leave the table and the log as
    they are. *)
Definition after_calls (w : world) (cs : list call) : world :=
  mk_world (table w) (calls w ++ cs) (stdout w).



(** The log line of a refused notification, if any. *)
Definition mail_log (E : env) (s : submission) : list string :=
  match ses_send_email E (notification s) with
  | None => []
  | Some email_error => ["Email failed (quota?): " ++ exn_str email_error]
  end.

Definition mail_sent (E : env) (s : submission) : bool :=
  match ses_send_email E (notification s) with
  | None => true
  | Some _ => false
  end.

Definition internal_error : response :=
  error_response 500 "Internal server error".

(** The world after the except clause has printed the fault. *)
Definition logged (w : world) (e : exn) : world :=
  mk_world (table w) (calls w) (stdout w ++ ["Error: " ++ exn_str e]).


(** Every way the handler can end. *)
Inductive ending (L : library) (E : env) (event : pyval) (w : world)
    : response * world -> Prop :=
| Unreadable e :
    read_submission L event = Err e ->
    ending L E event w (internal_error, logged w e)
| Incomplete s :
    read_submission L event = Ok s -> complete s = false ->
    ending L E event w (error_response 400 msg_missing, w)
| OverOrigin s :
    read_submission L event = Ok s -> complete s = true ->
    (10 <= length (recent_from_origin L E s w))%nat ->
    ending L E event w
      (error_response 429 msg_ip_limit, after_calls w [origin_query L E s])
| BadStoredEmail s e :
    read_submission L event = Ok s -> complete s = true ->
    (length (recent_from_origin L E s w) < 10)%nat ->
    email_count (recent_from_origin L E s w) (email s) = Err e ->
    ending L E event w
      (internal_error, logged (after_calls w [origin_query L E s]) e)
| OverEmail s c :
    read_submission L event = Ok s -> complete s = true ->
    (length (recent_from_origin L E s w) < 10)%nat ->
    email_count (recent_from_origin L E s w) (email s) = Ok c ->
    (5 <= c)%nat ->
    ending L E event w
      (error_response 429 msg_email_limit, after_calls w [origin_query L E s])
| Duplicate s c :
    read_submission L event = Ok s -> complete s = true ->
    (length (recent_from_origin L E s w) < 10)%nat ->
    email_count (recent_from_origin L E s w) (email s) = Ok c ->
    (c < 5)%nat ->
    recent_duplicates L E s w <> [] ->
    ending L E event w
      (error_response 429 msg_duplicate,
       after_calls w [origin_query L E s; duplicate_query L E s])
| Accepted s :
    read_submission L event = Ok s -> complete s = true ->
    passes_limits L E s w ->
    ending L E event w
      (success_response (if mail_sent E s then msg_sent else msg_received),
       mk_world (table w ++ [new_item L E s])
         (calls w ++ [origin_query L E s; duplicate_query L E s;
                      PutItem (new_item L E s); SendEmail (notification s)])
         (stdout w ++ mail_log E s)).

(** A value is a mapping. *)
Definition is_mapping (v : pyval) : bool :=
  match v with PDict _ => true | _ => false end.

(** The mapping bound to [k], the empty one when [k] is absent, none
    when [k] is bound to something else. *)
Definition sub_mapping (d : list (string * pyval)) (k : string)
    : option (list (string * pyval)) :=
  match assoc k d with
  | None => Some []
  | Some (PDict m) => Some m
  | Some _ => None
  end.

(** [k] is absent, or bound to null or to a text. *)
Definition text_or_none (d : list (string * pyval)) (k : string) : bool :=
  match assoc k d with
  | None | Some PNone | Some (PStr _) => true
  | Some _ => false
  end.

(** An event as API Gateway builds it: requestContext, its http and
    identity entries, and headers are mappings where present, and the
    source addresses and the forwarded-for header are texts where
    present. *)
Definition well_formed (ekvs : list (string * pyval)) : bool :=
  match sub_mapping ekvs "requestContext", sub_mapping ekvs "headers" with
  | Some rc, Some hs =>
      match sub_mapping rc "http", sub_mapping rc "identity" with
      | Some h, Some i =>
          text_or_none h "sourceIp" && text_or_none i "sourceIp"
          && text_or_none hs "x-forwarded-for"
          && text_or_none hs "X-Forwarded-For"
      | _, _ => false
      end
  | _, _ => false
  end.

(** The seven responses the handler has. *)
Definition fixed_responses : list response :=
  [success_response msg_sent;
   success_response msg_received;
   error_response 400 msg_missing;
   error_response 429 msg_ip_limit;
   error_response 429 msg_email_limit;
   error_response 429 msg_duplicate;
   error_response 500 msg_internal].




(** The library models above, as a [library]. *)
Definition cpython : library :=
  mk_library CPython.json_loads CPython.md5_hexdigest CPython.isoformat.

(** ** Sample events, records and environments *)

Module Sample.

Definition origin : string := "203.0.113.7".
Definition ann : string := "ann@example.org".
Definition bob : string := "bob@example.org".

(** An HTTP API event from [ip] carrying [body]. *)
Definition http_event (ip : string) (body : pyval) : pyval :=
  PDict [("requestContext", PDict [("http", PDict [("sourceIp", PStr ip)])]);
         ("body", body)].

(** The body a browser posts: the JSON text of the three fields. *)
Definition form (n e m : string) : pyval :=
  PStr (json_dumps [("name", n); ("email", e); ("message", m)]).

Definition noon : Z := CPython.datetime 2024 5 1 12 0 0 0.

(** A clock that starts at [start] and advances one millisecond between
    two readings. *)
Definition clock (start : Z) : nat -> Z :=
  fun n => start + Z.of_nat n * 1000.

(** An invocation at [start] in which the mail goes out. *)
Definition at_time (start : Z) (id : string) : env :=
  mk_env (clock start) id (fun _ => None).


(** The record the handler stores for a submission accepted at [t]. *)
Definition record (n : Z) (e m ip : string) (t : Z) : item :=
  [("MessageId", PStr ("msg-" ++ CPython.zero_padded 2 n));
   ("Timestamp", PStr (CPython.isoformat t));
   ("Name", PStr "Visitor");
   ("Email", PStr e);
   ("Message", PStr m);
   ("ContentHash", PStr (CPython.md5_hexdigest (e ++ lower m)));
   ("SourceIP", PStr ip)].

(** [count] records from [origin], five minutes apart from 11:05 on,
    the first five from ann and the others from bob. *)
Definition burst (count : nat) : list item :=
  map (fun k =>
         let n := Z.of_nat k in
         record n (if n <=? 5 then ann else bob)
           ("note " ++ CPython.zero_padded 2 n) origin
           (noon - hours 1 + minutes (5 * n)))
      (seq 1 count).

Definition world_of (tbl : list item) : world := mk_world tbl [] [].

Definition id1 : string := "3f2b8c1e-5d4a-4f6b-9a7c-0e1d2c3b4a5f".
Definition id2 : string := "7a1c9e04-2b6d-4c3f-8e5a-6d0f1b2c3d4e".

(** Ann's message, as posted and as read. *)
Definition hello : pyval :=
  http_event origin (form "Ann" " Ann@Example.org " "Hello there").

Definition hello_read : submission :=
  mk_submission "Ann" ann "Hello there" (PStr origin).








(** The same body, already decoded. *)
Definition numeric_email_decoded : pyval :=
  http_event origin
    (PDict [("name", PStr "Ann"); ("email", PInt 5); ("message", PStr "")]).

(** An event that carries its origin in the forwarded-for header only. *)
Definition forwarded : pyval :=
  PDict [("headers",
          PDict [("x-forwarded-for", PStr " 198.51.100.4 , 10.0.0.1")]);
         ("body", form "Ann" ann "Hello there")].

(** The two submissions whose email and message run together to the same
    text. *)
Definition ab_c : pyval := http_event origin (form "Ann" "ab" "c").
Definition a_bc : pyval := http_event origin (form "Bob" "a" "bc").

End Sample.

(** ** More sample events and records *)

Module Cases.

(** An event with nothing but a body: no request context, no headers. *)
Definition bare (body : pyval) : pyval := PDict [("body", body)].

(** The event of a proxy integration that sends null for what it has
    not: no address in the context, and null headers. *)
Definition null_headers : pyval :=
  PDict [("requestContext", PDict [("identity", PDict [])]);
         ("headers", PNone);
         ("body", Sample.form "Ann" Sample.ann "Hello there")].

(** An event without a body key, and one whose body is null. *)
Definition no_body : pyval :=
  PDict [("requestContext",
          PDict [("http", PDict [("sourceIp", PStr Sample.origin)])])].

Definition null_body : pyval := Sample.http_event Sample.origin PNone.

(** A body that is JSON, but a list. *)
Definition list_body : pyval :=
  Sample.http_event Sample.origin (PStr "[1, 2]").


(** A REST API event: the address is in requestContext.identity. *)
Definition rest_event_kvs : list (string * pyval) :=
  [("requestContext",
    PDict [("identity", PDict [("sourceIp", PStr "198.51.100.23")])]);
   ("headers", PDict [("X-Forwarded-For", PStr "198.51.100.23, 10.0.0.1")]);
   ("body", Sample.form "Ann" Sample.ann "Hello there")].

(** Ann's message with other padding and another letter case. *)
Definition hello_padded : pyval :=
  Sample.http_event Sample.origin
    (Sample.form "  Ann " "ann@example.ORG" "Hello there  ").

Definition hello_kvs : list (string * pyval) :=
  [("name", PStr "Ann"); ("email", PStr " Ann@Example.org ");
   ("message", PStr "Hello there")].

Definition hello_padded_kvs : list (string * pyval) :=
  [("name", PStr "  Ann "); ("email", PStr "ann@example.ORG");
   ("message", PStr "Hello there  ")].


End Cases.

(** * Properties *)

(** ** The library models agree with the library on test vectors *)

Example md5_empty :
  CPython.md5_hexdigest "" = "d41d8cd98f00b204e9800998ecf8427e".
Proof. vm_compute. reflexivity. Qed.

Example md5_abc :
  CPython.md5_hexdigest "abc" = "900150983cd24fb0d6963f7d28e17f72".
Proof. vm_compute. reflexivity. Qed.

Example md5_two_blocks :
  CPython.md5_hexdigest
    "aaaaaaaaaaaaaaaaaaaaaaaaaaaaaaaaaaaaaaaaaaaaaaaaaaaaaaaaaaaa"
  = "cc7ed669cf88f201c3297c6a91e1d18d".
Proof. vm_compute. reflexivity. Qed.

Example isoformat_whole_second :
  CPython.isoformat (CPython.datetime 2024 2 29 23 59 59 0)
  = "2024-02-29T23:59:59".
Proof. vm_compute. reflexivity. Qed.

Example isoformat_microseconds :
  CPython.isoformat (CPython.datetime 2025 1 1 0 0 0 42 - hours 1)
  = "2024-12-31T23:00:00.000042".
Proof. vm_compute. reflexivity. Qed.

Example isoformat_epoch : CPython.isoformat 0 = "1970-01-01T00:00:00".
Proof. vm_compute. reflexivity. Qed.


(** ** Text *)

Example strip_spaces :
  strip (String (ascii_of_nat 9) "  Ann Lee " ++ String (ascii_of_nat 10) "")
  = "Ann Lee".
Proof. reflexivity. Qed.

Example strip_blank : strip "   " = "".
Proof. reflexivity. Qed.

Example lower_mixed : lower "Ann.Lee+X@Example.ORG" = "ann.lee+x@example.org".
Proof. reflexivity. Qed.

Example split_forwarded :
  split comma " 198.51.100.4 , 10.0.0.1,"
  = [" 198.51.100.4 "; " 10.0.0.1"; ""].
Proof. reflexivity. Qed.

Example split_empty : split comma "" = [""].
Proof. reflexivity. Qed.

Example json_dumps_error :
  json_dumps [("status", "error"); ("message", "Missing required fields")]
  = "{" ++ dquote ++ "status" ++ dquote ++ ": " ++ dquote ++ "error" ++ dquote
    ++ ", " ++ dquote ++ "message" ++ dquote ++ ": " ++ dquote
    ++ "Missing required fields" ++ dquote ++ "}".
Proof. reflexivity. Qed.

Example json_loads_form :
  CPython.json_loads
    (json_dumps [("name", "Ann"); ("email", "ann@example.org");
                 ("message", "Hello there")])
  = Ok (PDict [("name", PStr "Ann"); ("email", PStr "ann@example.org");
               ("message", PStr "Hello there")]).
Proof. vm_compute. reflexivity. Qed.

Example json_loads_values :
  CPython.json_loads "[1, -2.50e3, true, null, {}, 0.5]"
  = Ok (PList [PInt 1; PFloat (-250) 1; PBool true; PNone; PDict [];
               PFloat 5 (-1)]).
Proof. vm_compute. reflexivity. Qed.

Example json_loads_not_json :
  CPython.json_loads "name=Ann&message=Hello"
  = Err (JSONDecodeError "Expecting value").
Proof. vm_compute. reflexivity. Qed.



Lemma split_not_nil (sep : ascii) (s : string) : split sep s <> [].
Proof.
  induction s as [|c r IH]; simpl.
  - discriminate.
  - destruct (Ascii.eqb c sep); [discriminate|].
    destruct (split sep r); [contradiction IH; reflexivity | discriminate].
Qed.

(** [forwarded.split(',')[0]] never raises on a text. *)
Lemma first_token_total (txt : string) :
  exists first rest,
    split comma txt = first :: rest
    /\ rbind (py_split (PStr txt) comma) index0 = Ok first.
Proof.
  destruct (split comma txt) as [|first rest] eqn:Hs.
  - contradiction (split_not_nil comma txt Hs).
  - exists first, rest. split; [reflexivity|].
    cbn [py_split rbind]. rewrite Hs. reflexivity.
Qed.


(** ** How the handler runs, step by step *)

Section Steps.

Variable L : library.
Variable E : env.

Lemma handle_unreadable (event : pyval) (w : world) (e : exn) :
  read_submission L event = Err e -> handle L E event w = (Raise e, w).
Proof.
  intro H. unfold handle, bind, lift. rewrite H. reflexivity.
Qed.

Lemma handle_incomplete (event : pyval) (w : world) (s : submission) :
  read_submission L event = Ok s -> complete s = false ->
  handle L E event w = (Return (error_response 400 msg_missing), w).
Proof.
  intros H C. unfold handle, bind, lift. rewrite H.
  unfold complete in C. apply negb_false_iff in C. rewrite C. reflexivity.
Qed.

Lemma handle_complete (event : pyval) (w : world) (s : submission) :
  read_submission L event = Ok s -> complete s = true ->
  handle L E event w =
  match check_limits L E s w with
  | (Next _, w') => accept L E s w'
  | (Return r, w') => (Return r, w')
  | (Raise e, w') => (Raise e, w')
  end.
Proof.
  intros H C. unfold handle, bind, lift. rewrite H.
  unfold complete in C. apply negb_true_iff in C. rewrite C. reflexivity.
Qed.

Lemma check_limits_run (s : submission) (w : world) :
  check_limits L E s w =
  let w1 := after_calls w [origin_query L E s] in
  if (10 <=? length (recent_from_origin L E s w))%nat then
    (Return (error_response 429 msg_ip_limit), w1)
  else
    match email_count (recent_from_origin L E s w) (email s) with
    | Err e => (Raise e, w1)
    | Ok c =>
        if (5 <=? c)%nat then (Return (error_response 429 msg_email_limit), w1)
        else
          let w2 := after_calls w [origin_query L E s; duplicate_query L E s] in
          match recent_duplicates L E s w with
          | _ :: _ => (Return (error_response 429 msg_duplicate), w2)
          | [] => (Next tt, w2)
          end
    end.
Proof.
  unfold check_limits, table_query, bind, record_call, return_, lift, ret,
    recent_from_origin, recent_duplicates, after_calls, origin_query,
    duplicate_query, MAX_SUBMISSIONS_PER_IP, MAX_SUBMISSIONS_PER_EMAIL.
  cbn [table calls stdout].
  destruct (10 <=? _)%nat; [reflexivity|].
  destruct (email_count _ _) as [c|e]; [|reflexivity].
  destruct (5 <=? c)%nat; [reflexivity|].
  cbn [table calls stdout]. rewrite <- app_assoc. cbn [app].
  destruct (select "ContentHash" _ _ _); reflexivity.
Qed.


Lemma accept_run (s : submission) (w : world) :
  accept L E s w =
  (Next (success_response (if mail_sent E s then msg_sent else msg_received)),
   mk_world (table w ++ [new_item L E s])
     (calls w ++ [PutItem (new_item L E s); SendEmail (notification s)])
     (stdout w ++ mail_log E s)).
Proof.
  unfold accept, table_put_item, try_send_email, bind, record_call, ret, print,
    mail_sent, mail_log.
  cbn [table calls stdout]. rewrite <- app_assoc. cbn [app].
  destruct (ses_send_email E (notification s)); cbn [negb table calls stdout].
  - reflexivity.
  - rewrite app_nil_r. reflexivity.
Qed.

End Steps.

(** ** Reading the request *)

Lemma parse_body_mapping (L : library) (ekvs kvs : list (string * pyval)) :
  assoc "body" ekvs = Some (PDict kvs) ->
  parse_body L (PDict ekvs) = Ok (PDict kvs).
Proof.
  intro H. unfold parse_body, py_get, rbind. rewrite H. reflexivity.
Qed.



Lemma field_not_text (kvs : list (string * pyval)) (k : string) (v : pyval) :
  assoc k kvs = Some v -> is_str v = false ->
  field (PDict kvs) k =
  Err (AttributeError ("'" ++ type_name v ++ "' object has no attribute 'strip'")).
Proof.
  intros H Hv. unfold field, py_get, rbind. rewrite H.
  destruct v; try discriminate Hv; reflexivity.
Qed.

(** A request one of whose three fields is bound to something else than a
    text cannot be read: trimming it raises. *)
Lemma read_submission_not_text (L : library) (event : pyval)
    (kvs : list (string * pyval)) (k : string) (v : pyval) :
  parse_body L event = Ok (PDict kvs) ->
  In k ["name"; "email"; "message"] ->
  assoc k kvs = Some v -> is_str v = false ->
  exists v', is_str v' = false /\
    read_submission L event =
    Err (AttributeError ("'" ++ type_name v' ++ "' object has no attribute 'strip'")).
Proof.
  intros Hb Hk Hv Hs. unfold read_submission. rewrite Hb. cbn [rbind].
  assert (Hcase : forall key, In key ["name"; "email"; "message"] ->
            (exists txt, field (PDict kvs) key = Ok txt) \/
            (exists v', is_str v' = false /\ field (PDict kvs) key =
               Err (AttributeError
                      ("'" ++ type_name v' ++ "' object has no attribute 'strip'")))).
  { intros key _. unfold field, py_get, rbind.
    destruct (assoc key kvs) as [x|].
    - destruct x; try (right; eexists; split; [|reflexivity]; reflexivity).
      left. eexists. reflexivity.
    - left. eexists. reflexivity. }
  pose proof (field_not_text kvs k v Hv Hs) as Hf.
  destruct (Hcase "name" (or_introl eq_refl)) as [[n Hn]|(v' & Hv' & Hn)];
    rewrite Hn; cbn [rbind]; [|exists v'; split; [exact Hv'|reflexivity]].
  destruct (Hcase "email" (or_intror (or_introl eq_refl)))
    as [[e He]|(v' & Hv' & He)];
    rewrite He; cbn [rbind]; [|exists v'; split; [exact Hv'|reflexivity]].
  destruct (Hcase "message" (or_intror (or_intror (or_introl eq_refl))))
    as [[m Hm]|(v' & Hv' & Hm)];
    rewrite Hm; cbn [rbind]; [|exists v'; split; [exact Hv'|reflexivity]].
  exfalso. simpl in Hk.
  destruct Hk as [<-|[<-|[<-|[]]]]; congruence.
Qed.

(** ** The outer fault boundary *)

Lemma handler_of_raise (L : library) (E : env) (event : pyval) (w w1 : world)
    (e : exn) :
  handle L E event w = (Raise e, w1) ->
  lambda_handler L E event w = (internal_error, logged w1 e).
Proof. intro H. unfold lambda_handler. rewrite H. reflexivity. Qed.

Lemma handler_of_return (L : library) (E : env) (event : pyval) (w w1 : world)
    (r : response) :
  handle L E event w = (Return r, w1) -> lambda_handler L E event w = (r, w1).
Proof. intro H. unfold lambda_handler. rewrite H. reflexivity. Qed.

Lemma handler_unreadable (L : library) (E : env) (event : pyval) (w : world)
    (e : exn) :
  read_submission L event = Err e ->
  lambda_handler L E event w = (internal_error, logged w e).
Proof.
  intro H. apply handler_of_raise, handle_unreadable, H.
Qed.

Lemma handler_ending (L : library) (E : env) (event : pyval) (w : world) :
  ending L E event w (lambda_handler L E event w).
Proof.
  destruct (read_submission L event) as [s|e] eqn:Hr.
  - destruct (complete s) eqn:Hc.
    + unfold lambda_handler. rewrite (handle_complete L E event w s Hr Hc).
      rewrite check_limits_run. cbv zeta.
      destruct (10 <=? _)%nat eqn:Hip.
      * apply Nat.leb_le in Hip. eapply OverOrigin; eassumption.
      * apply Nat.leb_gt in Hip.
        destruct (email_count _ _) as [c|e] eqn:Hcount.
        -- destruct (5 <=? c)%nat eqn:H5.
           ++ apply Nat.leb_le in H5. eapply OverEmail; eassumption.
           ++ apply Nat.leb_gt in H5.
              destruct (recent_duplicates L E s w) as [|d ds] eqn:Hdup.
              ** rewrite accept_run. cbn [table calls stdout after_calls].
                 rewrite <- app_assoc. cbn [app].
                 apply Accepted; try assumption.
                 split; [exact Hip|]. split; [|exact Hdup].
                 exists c. split; assumption.
              ** eapply Duplicate; try eassumption. rewrite Hdup. discriminate.
        -- eapply BadStoredEmail; eassumption.
    + rewrite (handler_of_return L E event w w _
                 (handle_incomplete L E event w s Hr Hc)).
      eapply Incomplete; eassumption.
  - rewrite (handler_unreadable L E event w e Hr). apply Unreadable, Hr.
Qed.

(** ** The claims *)




(** C9.  When the body is a mapping that was already decoded and name,
    email or message is bound in it to something that is not a text (a
    number, null, a list, ...), the answer is the generic 500 and not the
    400 of validation: trimming the value raises; nothing is queried or
    written. *)
Theorem non_text_field_is_internal_error (L : library) (E : env)
    (ekvs kvs : list (string * pyval)) (w : world) (k : string) (v : pyval) :
  assoc "body" ekvs = Some (PDict kvs) ->
  In k ["name"; "email"; "message"] ->
  assoc k kvs = Some v ->
  is_str v = false ->
  fst (lambda_handler L E (PDict ekvs) w)
    = error_response 500 "Internal server error"
  /\ statusCode (fst (lambda_handler L E (PDict ekvs) w)) <> 400
  /\ table (snd (lambda_handler L E (PDict ekvs) w)) = table w
  /\ calls (snd (lambda_handler L E (PDict ekvs) w)) = calls w.
Proof.
  intros Hb Hk Hv Hs.
  destruct (read_submission_not_text L (PDict ekvs) kvs k v
              (parse_body_mapping L ekvs kvs Hb) Hk Hv Hs) as (v' & _ & Hr).
  rewrite (handler_unreadable L E _ w _ Hr).
  repeat split. discriminate.
Qed.

(** ** The email limit *)






(** ** Acceptance *)


Lemma read_submission_fields (L : library) (event : pyval)
    (kvs : list (string * pyval)) (n e m : string) (ip : pyval) :
  parse_body L event = Ok (PDict kvs) ->
  assoc "name" kvs = Some (PStr n) ->
  assoc "email" kvs = Some (PStr e) ->
  assoc "message" kvs = Some (PStr m) ->
  get_source_ip event = Ok ip ->
  read_submission L event
  = Ok (mk_submission (strip n) (lower (strip e)) (strip m) ip).
Proof.
  intros Hb Hn He Hm Hip. unfold read_submission, field, py_get.
  rewrite Hb. cbn [rbind]. rewrite Hn, He, Hm. cbn [rbind py_strip].
  rewrite Hip. reflexivity.
Qed.




(** ** Duplicates *)

Lemma select_In (attr : string) (key : pyval) (time : string)
    (tbl : list item) (it : item) :
  In it tbl -> has_key attr key it = true -> newer_than time it = true ->
  select attr key time tbl <> [].
Proof.
  intros Hin Hk Ht Hnil.
  assert (In it (select attr key time tbl)) as Hsel.
  { unfold select. apply filter_In. split; [exact Hin|]. rewrite Hk, Ht.
    reflexivity. }
  rewrite Hnil in Hsel. exact Hsel.
Qed.

(** A submission that reaches step 5 while the table holds a record with
    its fingerprint, newer than five minutes, is answered as a
    duplicate. *)
Lemma stored_fingerprint_rejects (L : library) (E : env) (event : pyval)
    (w : world) (s : submission) (c : nat) (it : item) :
  read_submission L event = Ok s ->
  complete s = true ->
  (length (recent_from_origin L E s w) < 10)%nat ->
  email_count (recent_from_origin L E s w) (email s) = Ok c ->
  (c < 5)%nat ->
  In it (table w) ->
  assoc "ContentHash" it = Some (PStr (content_hash L (email s) (message s))) ->
  newer_than (five_mins_ago L E) it = true ->
  lambda_handler L E event w =
  (error_response 429 msg_duplicate,
   after_calls w [origin_query L E s; duplicate_query L E s]).
Proof.
  intros Hr Hc Hip Hcount H5 Hin Hh Hnew.
  unfold lambda_handler. rewrite (handle_complete L E event w s Hr Hc).
  rewrite check_limits_run. cbv zeta.
  apply Nat.leb_gt in Hip. rewrite Hip, Hcount.
  apply Nat.leb_gt in H5. rewrite H5.
  destruct (recent_duplicates L E s w) eqn:Hd; [|reflexivity].
  exfalso. revert Hd. unfold recent_duplicates.
  apply (select_In _ _ _ _ it Hin); [|exact Hnew].
  unfold has_key. rewrite Hh. cbn. apply String.eqb_refl.
Qed.

(** An invocation answered 200 has appended its record to the table. *)
Lemma accepted_record_stored (L : library) (E : env) (event : pyval)
    (w : world) (s : submission) :
  read_submission L event = Ok s ->
  statusCode (fst (lambda_handler L E event w)) = 200 ->
  table (snd (lambda_handler L E event w)) = (table w ++ [new_item L E s])%list.
Proof.
  intros Hr H200.
  destruct (handler_ending L E event w) as
    [e He|s' Hs' _|s' Hs' _ _|s' e Hs' _ _ _|s' c Hs' _ _ _ _
    |s' c Hs' _ _ _ _ _|s' Hs' _ _];
    cbn in H200; try discriminate H200.
  rewrite Hr in Hs'. injection Hs' as <-. reflexivity.
Qed.

(** Two submissions, the first accepted and the second with the same
    fingerprint, five minutes apart at most: the second, if it gets past
    the origin and email limits, is answered as a duplicate. *)
Lemma resubmission_rejected (L : library) (E1 E2 : env) (ev1 ev2 : pyval)
    (w0 w2 : world) (s1 s2 : submission) (more : list item) (c : nat) :
  read_submission L ev1 = Ok s1 ->
  statusCode (fst (lambda_handler L E1 ev1 w0)) = 200 ->
  table w2 = (table (snd (lambda_handler L E1 ev1 w0)) ++ more)%list ->
  read_submission L ev2 = Ok s2 ->
  complete s2 = true ->
  content_hash L (email s2) (message s2)
    = content_hash L (email s1) (message s1) ->
  String.ltb (five_mins_ago L E2) (isoformat L (utcnow E1 2)) = true ->
  (length (recent_from_origin L E2 s2 w2) < 10)%nat ->
  email_count (recent_from_origin L E2 s2 w2) (email s2) = Ok c ->
  (c < 5)%nat ->
  lambda_handler L E2 ev2 w2 =
  (error_response 429 msg_duplicate,
   after_calls w2 [origin_query L E2 s2; duplicate_query L E2 s2]).
Proof.
  intros Hr1 H200 Hw2 Hr2 Hc2 Hh Hnew Hip Hcount H5.
  apply (stored_fingerprint_rejects L E2 ev2 w2 s2 c (new_item L E1 s1));
    try assumption.
  - rewrite Hw2, (accepted_record_stored L E1 ev1 w0 s1 Hr1 H200).
    apply in_or_app. left. apply in_or_app. right. left. reflexivity.
  - rewrite Hh. reflexivity.
Qed.




(** C10.  The fingerprint is taken from the email and the lower-cased
    message put end to end, so it does not tell ("ab", "c") from
    ("a", "bc"): the emails differ, the messages differ, the fingerprints
    are equal, and when the first has been accepted within the last five
    minutes the second, once past the origin and email limits, is
    answered as a duplicate. *)
Theorem fingerprint_not_injective (L : library) :
  "ab" <> "a"
  /\ "c" <> "bc"
  /\ content_hash L "ab" "c" = content_hash L "a" "bc"
  /\ (forall (E1 E2 : env) (ev1 ev2 : pyval) (w0 w2 : world)
        (s1 s2 : submission) (more : list item) (c : nat),
        read_submission L ev1 = Ok s1 ->
        read_submission L ev2 = Ok s2 ->
        (email s1 = "ab" /\ message s1 = "c"
         /\ email s2 = "a" /\ message s2 = "bc")
        \/ (email s1 = "a" /\ message s1 = "bc"
            /\ email s2 = "ab" /\ message s2 = "c") ->
        complete s2 = true ->
        statusCode (fst (lambda_handler L E1 ev1 w0)) = 200 ->
        table w2 = (table (snd (lambda_handler L E1 ev1 w0)) ++ more)%list ->
        String.ltb (five_mins_ago L E2) (isoformat L (utcnow E1 2)) = true ->
        (length (recent_from_origin L E2 s2 w2) < 10)%nat ->
        email_count (recent_from_origin L E2 s2 w2) (email s2) = Ok c ->
        (c < 5)%nat ->
        fst (lambda_handler L E2 ev2 w2)
        = error_response 429
            "Duplicate submission detected. Please wait a few minutes.").
Proof.
  split; [discriminate|]. split; [discriminate|]. split; [reflexivity|].
  intros E1 E2 ev1 ev2 w0 w2 s1 s2 more c Hr1 Hr2 Hpair Hc2 H200 Hw2 Hnew
    Hip Hcount H5.
  rewrite (resubmission_rejected L E1 E2 ev1 ev2 w0 w2 s1 s2 more c
             Hr1 H200 Hw2 Hr2); try assumption; [reflexivity|].
  destruct Hpair as [(-> & -> & -> & ->)|(-> & -> & -> & ->)]; reflexivity.
Qed.

(** ** The origin address *)


(** ** The claims on the sample events *)

Import Sample.














(** An email that is the number 5 in a decoded body: 500, nothing queried
    or written. *)
Lemma non_text_field_is_internal_error_witness :
  fst (lambda_handler cpython (at_time noon id1) numeric_email_decoded
         (world_of []))
  = error_response 500 "Internal server error"
  /\ stdout (snd (lambda_handler cpython (at_time noon id1)
                    numeric_email_decoded (world_of [])))
     = ["Error: 'int' object has no attribute 'strip'"].
Proof.
  pose proof (non_text_field_is_internal_error cpython (at_time noon id1)
                [("requestContext",
                  PDict [("http", PDict [("sourceIp", PStr origin)])]);
                 ("body",
                  PDict [("name", PStr "Ann"); ("email", PInt 5);
                         ("message", PStr "")])]
                [("name", PStr "Ann"); ("email", PInt 5); ("message", PStr "")]
                (world_of []) "email" (PInt 5)
                eq_refl (or_intror (or_introl eq_refl)) eq_refl eq_refl)
    as (Hr & _).
  split; [exact Hr | vm_compute; reflexivity].
Defined.

(** ("ab", "c") is accepted at noon; ("a", "bc") comes two minutes later
    and is answered as its duplicate. *)
Lemma fingerprint_not_injective_witness :
  fst (lambda_handler cpython (at_time noon id1) ab_c (world_of []))
  = success_response "Message sent!"
  /\ fst (lambda_handler cpython (at_time (noon + minutes 2) id2) a_bc
            (snd (lambda_handler cpython (at_time noon id1) ab_c
                    (world_of []))))
     = error_response 429
         "Duplicate submission detected. Please wait a few minutes.".
Proof.
  split; [vm_compute; reflexivity|].
  destruct (fingerprint_not_injective cpython) as (_ & _ & _ & Hdup).
  apply (Hdup (at_time noon id1) (at_time (noon + minutes 2) id2) ab_c a_bc
           (world_of [])
           (snd (lambda_handler cpython (at_time noon id1) ab_c (world_of [])))
           (mk_submission "Ann" "ab" "c" (PStr origin))
           (mk_submission "Bob" "a" "bc" (PStr origin)) [] 0%nat).
  - vm_compute. reflexivity.
  - vm_compute. reflexivity.
  - left. repeat split.
  - reflexivity.
  - vm_compute. reflexivity.
  - symmetry. apply app_nil_r.
  - vm_compute. reflexivity.
  - vm_compute. repeat constructor.
  - vm_compute. reflexivity.
  - repeat constructor.
Defined.

(** * Further properties of the two functions *)

(** ** get_source_ip *)

Lemma rbind_ok {A B : Type} (r : result A) (k : A -> result B) (b : B) :
  rbind r k = Ok b -> exists a, r = Ok a /\ k a = Ok b.
Proof.
  destruct r as [a|e]; cbn; intro H; [exists a; split; [reflexivity|exact H]|].
  discriminate H.
Qed.

Lemma truthy_or_unknown (v : pyval) : truthy (py_or v (PStr "unknown")) = true.
Proof. unfold py_or. destruct (truthy v) eqn:T; [exact T | reflexivity]. Qed.

(** X1.  Whatever the event, an origin that [get_source_ip] returns is
    never a value Python takes for false: not null, not the empty text,
    not zero.  The last line, [ip or 'unknown'], sees to it. *)
Theorem source_ip_never_empty (event ip : pyval) :
  get_source_ip event = Ok ip -> truthy ip = true.
Proof.
  unfold get_source_ip. intro H.
  apply rbind_ok in H as (rc & _ & H).
  apply rbind_ok in H as (http & _ & H).
  apply rbind_ok in H as (a & _ & H).
  apply rbind_ok in H as (b & _ & H).
  apply rbind_ok in H as (c & _ & H).
  injection H as <-. apply truthy_or_unknown.
Qed.

Lemma sub_mapping_get (d m : list (string * pyval)) (k : string) :
  sub_mapping d k = Some m -> py_get (PDict d) k (PDict []) = Ok (PDict m).
Proof.
  unfold sub_mapping, py_get. destruct (assoc k d) as [v|].
  - destruct v; try discriminate. intro H. injection H as <-. reflexivity.
  - intro H. injection H as <-. reflexivity.
Qed.

Lemma text_or_none_get (d : list (string * pyval)) (k : string) :
  text_or_none d k = true ->
  py_get (PDict d) k PNone = Ok PNone
  \/ exists txt, py_get (PDict d) k PNone = Ok (PStr txt).
Proof.
  unfold text_or_none, py_get. destruct (assoc k d) as [v|].
  - destruct v; try discriminate; intros _;
      [left; reflexivity | right; eexists; reflexivity].
  - intros _. left. reflexivity.
Qed.

Lemma truthy_text (txt : string) : truthy (PStr txt) = negb (blank txt).
Proof. reflexivity. Qed.

(** X2.  On an event shaped as API Gateway shapes it, [get_source_ip]
    does not raise and the origin is a text that is not empty. *)
Theorem source_ip_text_on_well_formed (ekvs : list (string * pyval)) :
  well_formed ekvs = true ->
  exists txt, get_source_ip (PDict ekvs) = Ok (PStr txt) /\ txt <> "".
Proof.
  unfold well_formed.
  destruct (sub_mapping ekvs "requestContext") as [rc|] eqn:Hrc;
    [|discriminate].
  destruct (sub_mapping ekvs "headers") as [hs|] eqn:Hhs; [|discriminate].
  destruct (sub_mapping rc "http") as [h|] eqn:Hh; [|discriminate].
  destruct (sub_mapping rc "identity") as [i|] eqn:Hi; [|discriminate].
  intro H. apply andb_prop in H as (H & Hy). apply andb_prop in H as (H & Hx).
  apply andb_prop in H as (Ha & Hb).
  apply sub_mapping_get in Hrc, Hhs, Hh, Hi.
  assert (Hend : forall v, (v = PNone \/ exists t, v = PStr t) ->
            exists txt, Ok (py_or v (PStr "unknown")) = Ok (PStr txt)
                        /\ txt <> "").
  { intros v [->|(t & ->)].
    - exists "unknown". split; [reflexivity | discriminate].
    - unfold py_or. rewrite truthy_text. destruct (blank t) eqn:B.
      + exists "unknown". split; [reflexivity | discriminate].
      + exists t. split; [reflexivity|]. intros ->. discriminate B. }
  unfold get_source_ip.
  destruct (text_or_none_get h "sourceIp" Ha) as [Ga|(ta & Ga)];
  destruct (text_or_none_get i "sourceIp" Hb) as [Gb|(tb & Gb)];
  destruct (text_or_none_get hs "x-forwarded-for" Hx) as [Gx|(tx & Gx)];
  destruct (text_or_none_get hs "X-Forwarded-For" Hy) as [Gy|(ty & Gy)];
  repeat (cbn [rbind negb truthy py_split index0];
          match goal with
          | G : py_get ?d ?k ?v = _ |- context [py_get ?d ?k ?v] => rewrite G
          | |- context [(?t =? "")%string] =>
              let B := fresh "B" in destruct (t =? "")%string eqn:B
          | |- context [split comma ?t] =>
              let Hs := fresh "Hs" in
              destruct (split comma t) eqn:Hs;
              [exfalso; exact (split_not_nil _ _ Hs)|]
          end);
  apply Hend; solve [left; reflexivity | right; eexists; reflexivity].
Qed.

(** X3.  [event.get('headers', {})] falls back on the empty mapping only
    when the key is absent.  With no address in the request context, an
    event without headers has the origin "unknown", while an event
    whose headers are bound to null, or to anything that is not a
    mapping, makes [get_source_ip] raise an AttributeError. *)
Theorem headers_absent_or_not_a_mapping (ekvs rc h i : list (string * pyval))
    (a b : pyval) :
  sub_mapping ekvs "requestContext" = Some rc ->
  sub_mapping rc "http" = Some h ->
  py_get (PDict h) "sourceIp" PNone = Ok a -> truthy a = false ->
  sub_mapping rc "identity" = Some i ->
  py_get (PDict i) "sourceIp" PNone = Ok b -> truthy b = false ->
  (assoc "headers" ekvs = None ->
   get_source_ip (PDict ekvs) = Ok (PStr "unknown"))
  /\ (forall v, assoc "headers" ekvs = Some v -> is_mapping v = false ->
      get_source_ip (PDict ekvs)
      = Err (AttributeError
               ("'" ++ type_name v ++ "' object has no attribute 'get'"))).
Proof.
  intros Hrc Hh Ha Ta Hi Hb Tb.
  apply sub_mapping_get in Hrc, Hh, Hi.
  unfold get_source_ip.
  rewrite Hrc. cbn [rbind]. rewrite Hh. cbn [rbind]. rewrite Ha. cbn [rbind].
  rewrite Ta. cbn [negb]. rewrite Hi. cbn [rbind]. rewrite Hb. cbn [rbind].
  rewrite Tb. cbn [negb]. split.
  - intro Hn. unfold py_get at 1. rewrite Hn. cbn. unfold py_or.
    rewrite Tb. reflexivity.
  - intros v Hv Hm. unfold py_get at 1. rewrite Hv. cbn [rbind].
    destruct v; try discriminate Hm; reflexivity.
Qed.

Lemma read_needs_origin (L : library) (event : pyval) (e : exn) :
  get_source_ip event = Err e -> exists e', read_submission L event = Err e'.
Proof.
  intro H. unfold read_submission.
  destruct (parse_body L event) as [body|e0]; [|eexists; reflexivity].
  cbn [rbind].
  destruct (field body "name") as [n|e1]; [|eexists; reflexivity].
  cbn [rbind].
  destruct (field body "email") as [m|e2]; [|eexists; reflexivity].
  cbn [rbind].
  destruct (field body "message") as [t|e3]; [|eexists; reflexivity].
  cbn [rbind]. rewrite H. eexists. reflexivity.
Qed.

(** X4.  The origin is derived before the fields are checked: when
    [get_source_ip] raises, the answer is the generic 500 whatever the
    body holds, and nothing is queried, written or mailed. *)
Theorem origin_fault_is_internal_error (L : library) (E : env)
    (event : pyval) (w : world) (e : exn) :
  get_source_ip event = Err e ->
  fst (lambda_handler L E event w) = error_response 500 "Internal server error"
  /\ table (snd (lambda_handler L E event w)) = table w
  /\ calls (snd (lambda_handler L E event w)) = calls w.
Proof.
  intro H. destruct (read_needs_origin L event e H) as (e' & Hr).
  rewrite (handler_unreadable L E event w e' Hr). repeat split.
Qed.

(** X5.  An event with no body key at all is read as an empty form: when
    its origin can be derived it is answered 400 "Missing required
    fields" and the world is left as it is. *)
Theorem absent_body_is_missing_fields (L : library) (E : env)
    (ekvs : list (string * pyval)) (w : world) (ip : pyval) :
  assoc "body" ekvs = None ->
  get_source_ip (PDict ekvs) = Ok ip ->
  lambda_handler L E (PDict ekvs) w
  = (error_response 400 "Missing required fields", w).
Proof.
  intros Hb Hip.
  assert (Hr : read_submission L (PDict ekvs) = Ok (mk_submission "" "" "" ip)).
  { assert (Hp : parse_body L (PDict ekvs) = Ok (PDict [])).
    { unfold parse_body, py_get. rewrite Hb. reflexivity. }
    unfold read_submission. rewrite Hp. cbn [rbind].
    change (field (PDict []) "name") with (@Ok string "").
    change (field (PDict []) "email") with (@Ok string "").
    change (field (PDict []) "message") with (@Ok string "").
    cbn [rbind]. rewrite Hip. reflexivity. }
  apply (handler_of_return L E _ w w).
  apply (handle_incomplete L E _ w _ Hr). reflexivity.
Qed.

(** X6.  A body that is, or decodes to, anything but a mapping (null, a
    number, a list, a text) is answered with the generic 500: reading
    its first field raises, and the log says which type had no [get]. *)
Theorem non_mapping_body_is_internal_error (L : library) (E : env)
    (event : pyval) (w : world) (v : pyval) :
  parse_body L event = Ok v ->
  is_mapping v = false ->
  lambda_handler L E event w
  = (error_response 500 "Internal server error",
     mk_world (table w) (calls w)
       (stdout w
        ++ [("Error: '" ++ type_name v ++ "' object has no attribute 'get'")%string])).
Proof.
  intros Hb Hm.
  rewrite (handler_unreadable L E event w
             (AttributeError
                ("'" ++ type_name v ++ "' object has no attribute 'get'"))).
  - reflexivity.
  - unfold read_submission. rewrite Hb. cbn [rbind].
    destruct v; try discriminate Hm; reflexivity.
Qed.

(** ** lambda_handler: what every invocation keeps *)

(** X7.  Nothing is accepted over a limit: a 200 is only given to a
    request that could be read, has its three fields, and is under the
    origin limit, under the email limit and not a recent duplicate at the
    time of its queries. *)
Theorem accepted_only_under_limits (L : library) (E : env) (event : pyval)
    (w : world) :
  statusCode (fst (lambda_handler L E event w)) = 200 ->
  exists s,
    read_submission L event = Ok s
    /\ complete s = true
    /\ (length (recent_from_origin L E s w) < 10)%nat
    /\ (exists c, email_count (recent_from_origin L E s w) (email s) = Ok c
                  /\ (c < 5)%nat)
    /\ recent_duplicates L E s w = [].
Proof.
  intro H.
  destruct (handler_ending L E event w) as
    [e He|s Hs Hc|s Hs Hc Hip|s e Hs Hc Hip Hcount|s c Hs Hc Hip Hcount H5
    |s c Hs Hc Hip Hcount H5 Hdup|s Hs Hc Hp];
    cbn in H; try discriminate H.
  exists s. split; [exact Hs|]. split; [exact Hc | exact Hp].
Qed.


(** X9.  The table only grows, and by one record at most: the records
    that were there stay as they were, in their order, and the table is
    one record longer exactly when the answer is 200. *)
Theorem table_grows_iff_success (L : library) (E : env) (event : pyval)
    (w : world) :
  firstn (length (table w)) (table (snd (lambda_handler L E event w)))
  = table w
  /\ length (table (snd (lambda_handler L E event w)))
     = (length (table w)
        + (if (statusCode (fst (lambda_handler L E event w)) =? 200)%Z
           then 1 else 0))%nat.
Proof.
  destruct (handler_ending L E event w);
    cbn [fst snd table statusCode error_response success_response
         internal_error logged after_calls Z.eqb Pos.eqb];
    try (split; [apply firstn_all | symmetry; apply Nat.add_0_r]).
  split.
  - rewrite firstn_app, firstn_all, Nat.sub_diag. cbn. apply app_nil_r.
  - rewrite length_app. reflexivity.
Qed.


(** X11.  The response is always one of seven fixed values: nothing of
    the request, of the table or of a fault is ever copied into the
    status, the headers or the body. *)
Theorem response_is_fixed (L : library) (E : env) (event : pyval) (w : world) :
  In (fst (lambda_handler L E event w)) fixed_responses.
Proof.
  destruct (handler_ending L E event w); cbn [fst]; unfold fixed_responses;
    try (cbn; tauto).
  destruct (mail_sent E s); cbn; tauto.
Qed.

(** X12.  Every response, success or failure, has Content-Type
    application/json and allows every origin; the two preflight headers
    are on the 200 and on no other response. *)
Theorem cors_headers_everywhere (L : library) (E : env) (event : pyval)
    (w : world) :
  assoc "Content-Type" (headers (fst (lambda_handler L E event w)))
  = Some "application/json"
  /\ assoc "Access-Control-Allow-Origin"
       (headers (fst (lambda_handler L E event w))) = Some "*"
  /\ (assoc "Access-Control-Allow-Methods"
        (headers (fst (lambda_handler L E event w)))
      = (if statusCode (fst (lambda_handler L E event w)) =? 200
         then Some "POST, OPTIONS" else None))
  /\ (assoc "Access-Control-Allow-Headers"
        (headers (fst (lambda_handler L E event w)))
      = (if statusCode (fst (lambda_handler L E event w)) =? 200
         then Some "Content-Type" else None)).
Proof.
  destruct (handler_ending L E event w); cbn [fst]; repeat split.
Qed.

(** X13.  A mail the handler sends goes from the operator's address to
    the operator's address and to nobody else, and only for a request
    that is answered 200; the address the visitor typed is never a
    recipient. *)
Theorem mail_only_to_sender (L : library) (E : env) (event : pyval)
    (w : world) (m : mail) :
  In (SendEmail m) (calls (snd (lambda_handler L E event w))) ->
  In (SendEmail m) (calls w)
  \/ (Source m = "rempisivan@gmail.com"
      /\ ToAddresses m = ["rempisivan@gmail.com"]
      /\ statusCode (fst (lambda_handler L E event w)) = 200).
Proof.
  destruct (handler_ending L E event w) as
    [e He|s Hs Hc|s Hs Hc Hip|s e Hs Hc Hip Hcount|s c Hs Hc Hip Hcount H5
    |s c Hs Hc Hip Hcount H5 Hdup|s Hs Hc Hp];
    cbn [fst snd calls logged after_calls statusCode success_response];
    intro Hin; try (left; exact Hin);
    apply in_app_or in Hin as [Hin|Hin]; try (left; exact Hin);
    cbn [In] in Hin; unfold origin_query, duplicate_query in Hin.
  - destruct Hin as [Hin|[]]; discriminate Hin.
  - destruct Hin as [Hin|[]]; discriminate Hin.
  - destruct Hin as [Hin|[]]; discriminate Hin.
  - destruct Hin as [Hin|[Hin|[]]]; discriminate Hin.
  - destruct Hin as [Hin|[Hin|[Hin|[Hin|[]]]]]; try discriminate Hin.
    injection Hin as <-. right. repeat split.
Qed.

(** X14.  The log gets one line "Error: ..." with the text of the fault
    for every 500, one line "Email failed (quota?): ..." for every 200
    "Message received!", and nothing otherwise. *)
Theorem log_lines (L : library) (E : env) (event : pyval) (w : world) :
  (statusCode (fst (lambda_handler L E event w)) = 500 ->
   exists e, stdout (snd (lambda_handler L E event w))
             = (stdout w ++ [("Error: " ++ exn_str e)%string])%list)
  /\ (fst (lambda_handler L E event w) = success_response "Message received!" ->
      exists e, stdout (snd (lambda_handler L E event w))
                = (stdout w
                   ++ [("Email failed (quota?): " ++ exn_str e)%string])%list)
  /\ (statusCode (fst (lambda_handler L E event w)) <> 500 ->
      fst (lambda_handler L E event w) <> success_response "Message received!" ->
      stdout (snd (lambda_handler L E event w)) = stdout w).
Proof.
  destruct (handler_ending L E event w) as
    [e He|s Hs Hc|s Hs Hc Hip|s e Hs Hc Hip Hcount|s c Hs Hc Hip Hcount H5
    |s c Hs Hc Hip Hcount H5 Hdup|s Hs Hc Hp];
    cbn [fst snd stdout logged after_calls statusCode error_response
         internal_error];
    (split; [|split]); try discriminate; try (intros; reflexivity);
    try (intros _; eexists; reflexivity);
    try (intros H; exfalso; apply H; reflexivity).
  - unfold mail_sent, mail_log.
    destruct (ses_send_email E (notification s)) as [err|].
    + intros _. exists err. reflexivity.
    + discriminate.
  - unfold mail_sent, mail_log.
    destruct (ses_send_email E (notification s)) as [err|].
    + intros _ H. exfalso. apply H. reflexivity.
    + intros _ _. apply app_nil_r.
Qed.

(** ** lambda_handler: one invocation after another *)






(** ** Normal forms of the fields *)














(** X18.  White space around the three fields and the letter case of
    the email do not matter: two requests whose bodies are mappings with
    texts that agree once trimmed (and, for the email, lower-cased), and
    whose origins are derived alike, get the same response and leave the
    same world. *)
Theorem padding_and_email_case_do_not_matter (L : library) (E : env)
    (ev ev' : pyval) (w : world) (kvs kvs' : list (string * pyval))
    (n e m n' e' m' : string) (ip : pyval) :
  parse_body L ev = Ok (PDict kvs) ->
  parse_body L ev' = Ok (PDict kvs') ->
  assoc "name" kvs = Some (PStr n) -> assoc "name" kvs' = Some (PStr n') ->
  assoc "email" kvs = Some (PStr e) -> assoc "email" kvs' = Some (PStr e') ->
  assoc "message" kvs = Some (PStr m) ->
  assoc "message" kvs' = Some (PStr m') ->
  get_source_ip ev = Ok ip -> get_source_ip ev' = Ok ip ->
  strip n = strip n' ->
  lower (strip e) = lower (strip e') ->
  strip m = strip m' ->
  lambda_handler L E ev w = lambda_handler L E ev' w.
Proof.
  intros Hb Hb' Hn Hn' He He' Hm Hm' Hip Hip' En Ee Em.
  pose proof (read_submission_fields L ev kvs n e m ip Hb Hn He Hm Hip) as Hr.
  pose proof (read_submission_fields L ev' kvs' n' e' m' ip
                Hb' Hn' He' Hm' Hip') as Hr'.
  rewrite <- En, <- Ee, <- Em in Hr'.
  unfold lambda_handler, handle, bind, lift. rewrite Hr, Hr'. reflexivity.
Qed.

(** ** The email count *)















(** ** The further properties on the sample events *)

Import Cases.

Lemma source_ip_never_empty_witness : truthy (PStr "198.51.100.4") = true.
Proof.
  apply (source_ip_never_empty forwarded). vm_compute. reflexivity.
Defined.

Lemma source_ip_text_on_well_formed_witness :
  exists txt, get_source_ip (PDict rest_event_kvs) = Ok (PStr txt) /\ txt <> "".
Proof.
  apply (source_ip_text_on_well_formed rest_event_kvs). vm_compute. reflexivity.
Defined.

Lemma headers_absent_or_not_a_mapping_witness :
  get_source_ip null_headers
  = Err (AttributeError "'NoneType' object has no attribute 'get'").
Proof.
  destruct (headers_absent_or_not_a_mapping
              [("requestContext", PDict [("identity", PDict [])]);
               ("headers", PNone);
               ("body", form "Ann" ann "Hello there")]
              [("identity", PDict [])] [] [] PNone PNone
              eq_refl eq_refl eq_refl eq_refl eq_refl eq_refl eq_refl)
    as (_ & Hnull).
  exact (Hnull PNone eq_refl eq_refl).
Defined.

Lemma origin_fault_is_internal_error_witness :
  fst (lambda_handler cpython (at_time noon id1) null_headers (world_of (burst 3)))
  = error_response 500 "Internal server error"
  /\ table (snd (lambda_handler cpython (at_time noon id1) null_headers
                   (world_of (burst 3)))) = burst 3.
Proof.
  destruct (origin_fault_is_internal_error cpython (at_time noon id1)
              null_headers (world_of (burst 3))
              (AttributeError "'NoneType' object has no attribute 'get'"))
    as (Hr & Ht & _).
  - vm_compute. reflexivity.
  - split; [exact Hr | exact Ht].
Defined.

Lemma absent_body_is_missing_fields_witness :
  lambda_handler cpython (at_time noon id1) no_body (world_of (burst 3))
  = (error_response 400 "Missing required fields", world_of (burst 3)).
Proof.
  apply (absent_body_is_missing_fields cpython (at_time noon id1)
           [("requestContext",
             PDict [("http", PDict [("sourceIp", PStr origin)])])]
           (world_of (burst 3)) (PStr origin)).
  - reflexivity.
  - vm_compute. reflexivity.
Defined.

Lemma non_mapping_body_is_internal_error_witness :
  lambda_handler cpython (at_time noon id1) null_body (world_of [])
  = (error_response 500 "Internal server error",
     mk_world [] [] ["Error: 'NoneType' object has no attribute 'get'"])
  /\ lambda_handler cpython (at_time noon id1) list_body (world_of [])
     = (error_response 500 "Internal server error",
        mk_world [] [] ["Error: 'list' object has no attribute 'get'"]).
Proof.
  split.
  - apply (non_mapping_body_is_internal_error cpython (at_time noon id1)
             null_body (world_of []) PNone); reflexivity.
  - apply (non_mapping_body_is_internal_error cpython (at_time noon id1)
             list_body (world_of []) (PList [PInt 1; PInt 2]));
      [vm_compute; reflexivity | reflexivity].
Defined.

Lemma accepted_only_under_limits_witness :
  exists s,
    read_submission cpython hello = Ok s
    /\ complete s = true
    /\ (length (recent_from_origin cpython (at_time noon id1) s
                  (world_of (burst 3))) < 10)%nat
    /\ (exists c,
          email_count (recent_from_origin cpython (at_time noon id1) s
                         (world_of (burst 3))) (email s) = Ok c
          /\ (c < 5)%nat)
    /\ recent_duplicates cpython (at_time noon id1) s (world_of (burst 3)) = [].
Proof.
  apply (accepted_only_under_limits cpython (at_time noon id1) hello
           (world_of (burst 3))).
  vm_compute. reflexivity.
Defined.

Lemma mail_only_to_sender_witness :
  In (SendEmail (notification hello_read)) []
  \/ (Source (notification hello_read) = "rempisivan@gmail.com"
      /\ ToAddresses (notification hello_read) = ["rempisivan@gmail.com"]
      /\ statusCode (fst (lambda_handler cpython (at_time noon id1) hello
                            (world_of []))) = 200).
Proof.
  apply (mail_only_to_sender cpython (at_time noon id1) hello (world_of [])
           (notification hello_read)).
  vm_compute. tauto.
Defined.




Lemma padding_and_email_case_do_not_matter_witness :
  lambda_handler cpython (at_time noon id1) hello (world_of (burst 3))
  = lambda_handler cpython (at_time noon id1) hello_padded (world_of (burst 3)).
Proof.
  apply (padding_and_email_case_do_not_matter cpython (at_time noon id1)
           hello hello_padded (world_of (burst 3)) hello_kvs hello_padded_kvs
           "Ann" " Ann@Example.org " "Hello there"
           "  Ann " "ann@example.ORG" "Hello there  " (PStr origin));
    vm_compute; reflexivity.
Defined.




